(** * Raster filters of [src/lib/imageUtils.ts]

    The five canvas filters ([calculateAttentionScore],
    [applyRestorationFilter], [applySuperResolution], [applyStyleTransfer],
    [applyColorization]) read and write the [data] of an [ImageData], a
    [Uint8ClampedArray], and compute with JavaScript numbers.

    - A JavaScript number is an IEEE 754 binary64: Rocq's primitive [float].
    - A [Uint8ClampedArray] is a [list Z] of samples.  A read outside of the
      array gives [undefined], which every use in the file turns into [NaN]
      at once; a write outside of the array is dropped; a write inside
      converts the number with [ToUint8Clamp].
    - A [for] loop with a fixed bound is a fold over its trip count. *)

From Stdlib Require Import ZArith List Floats Uint63 Lia Bool String.
From stdpp Require Import base list.

Set Warnings "-inexact-float".
Local Open Scope Z_scope.

(** ** JavaScript numbers *)

Module Math.

(** [Math.min]: [NaN] when an argument is [NaN]; [-0] is below [+0]. *)
Definition min (a b : float) : float :=
  if (is_nan a || is_nan b)%bool then nan
  else if (a <? b)%float then a
  else if (b <? a)%float then b
  else if get_sign a then a else b.

(** [Math.max]: [NaN] when an argument is [NaN]; [+0] is above [-0]. *)
Definition max (a b : float) : float :=
  if (is_nan a || is_nan b)%bool then nan
  else if (a <? b)%float then b
  else if (b <? a)%float then a
  else if get_sign a then b else a.

Definition abs (a : float) : float := PrimFloat.abs a.

End Math.

(** The number of an integer that the program holds exactly (a sample, a
    counter). *)
Definition Number (v : Z) : float := PrimFloat.of_uint63 (Uint63.of_Z v).

(** [m * 2^e] rounded to the nearest integer, ties to the even one. *)
Definition round_half_even (m : positive) (e : Z) : Z :=
  match e with
  | Z0 => Zpos m
  | Zpos _ => Zpos m * 2 ^ e
  | Zneg p =>
      let d := 2 ^ Zpos p in
      let q := Zpos m / d in
      match 2 * (Zpos m mod d) ?= d with
      | Lt => q
      | Gt => q + 1
      | Eq => if Z.even q then q else q + 1
      end
  end.

(** ECMAScript's [ToUint8Clamp], the conversion of a store into a
    [Uint8ClampedArray]: [NaN] and numbers below 0 give 0, numbers above 255
    give 255, the others are rounded, ties to even. *)
Definition ToUint8Clamp (x : float) : Z :=
  match Prim2SF x with
  | S754_nan => 0
  | S754_zero _ => 0
  | S754_infinity s => if s then 0 else 255
  | S754_finite s m e => if s then 0 else Z.min 255 (round_half_even m e)
  end.

(** ** The sample array *)

Abbreviation Uint8ClampedArray := (list Z).

(** [data[i]] where a number is expected. *)
Definition data_get (data : Uint8ClampedArray) (i : Z) : float :=
  if i <? 0 then nan
  else match data !! Z.to_nat i with
       | Some v => Number v
       | None => nan
       end.

(** [data[i] = x]. *)
Definition data_set (data : Uint8ClampedArray) (i : Z) (x : float)
  : Uint8ClampedArray :=
  if i <? 0 then data else <[Z.to_nat i := ToUint8Clamp x]> data.

Definition data_length (data : Uint8ClampedArray) : Z := Z.of_nat (length data).

(** A buffer as [getImageData] hands it out: every sample is a byte. *)
Definition sample (v : Z) : Prop := 0 <= v <= 255.
Definition valid_buffer (data : Uint8ClampedArray) : Prop := Forall sample data.

(** ** Loops

    [for (let i = start; i < stop; i += 4) body]: [trips start stop] turns of
    [body], the first at [start]. *)
Fixpoint for_loop {St : Type} (n : nat) (i : Z) (body : Z -> St -> St) (s : St)
  : St :=
  match n with
  | O => s
  | S n' => for_loop n' (i + 4) body (body i s)
  end.

Definition trips (start stop : Z) : nat := Z.to_nat ((stop - start + 3) / 4).

(** ** calculateAttentionScore *)

Definition attention_step (width : Z) (data : Uint8ClampedArray) (i : Z)
  (acc : float * Z) : float * Z :=
  let '(sum, count) := acc in
  let center := (data_get data i * 0.299 + data_get data (i + 1) * 0.587
                 + data_get data (i + 2) * 0.114)%float in
  let top := (data_get data (i - width * 4) * 0.299
              + data_get data (i - width * 4 + 1) * 0.587
              + data_get data (i - width * 4 + 2) * 0.114)%float in
  let bottom := (data_get data (i + width * 4) * 0.299
                 + data_get data (i + width * 4 + 1) * 0.587
                 + data_get data (i + width * 4 + 2) * 0.114)%float in
  let left := (data_get data (i - 4) * 0.299 + data_get data (i - 3) * 0.587
               + data_get data (i - 2) * 0.114)%float in
  let right := (data_get data (i + 4) * 0.299 + data_get data (i + 5) * 0.587
                + data_get data (i + 6) * 0.114)%float in
  let laplacian := Math.abs (4 * center - top - bottom - left - right)%float in
  ((sum + laplacian)%float, count + 1).

Definition calculateAttentionScore (width : Z) (data : Uint8ClampedArray)
  : float :=
  let start := width + 4 in
  let stop := data_length data - width * 4 - 4 in
  let '(sum, count) :=
    for_loop (trips start stop) start (attention_step width data) (0%float, 0) in
  if 0 <? count then Math.min (sum / Number count / 50)%float 10%float
  else 0%float.

(** ** applyRestorationFilter *)

Definition restoration_step (strength : float) (i : Z)
  (data : Uint8ClampedArray) : Uint8ClampedArray :=
  let contrast := (1 + strength * 0.5)%float in
  let data := data_set data i
    (Math.min 255 ((data_get data i - 128) * contrast + 128)%float) in
  let data := data_set data (i + 1)
    (Math.min 255 ((data_get data (i + 1) - 128) * contrast + 128)%float) in
  let data := data_set data (i + 2)
    (Math.min 255 ((data_get data (i + 2) - 128) * contrast + 128)%float) in
  if (0.3 <? strength)%float then
    let blur := (strength * 0.2)%float in
    let data := data_set data i
      (data_get data i * (1 - blur) + 128 * blur)%float in
    let data := data_set data (i + 1)
      (data_get data (i + 1) * (1 - blur) + 128 * blur)%float in
    data_set data (i + 2)
      (data_get data (i + 2) * (1 - blur) + 128 * blur)%float
  else data.

Definition applyRestorationFilter (data : Uint8ClampedArray) (strength : float)
  : Uint8ClampedArray :=
  for_loop (trips 0 (data_length data)) 0 (restoration_step strength) data.

(** ** applySuperResolution *)

Definition sharpenKernel : list float :=
  [0; -1; 0; -1; 5; -1; 0; -1; 0]%float.

(** The pairs [(dy, dx)] in the order of the two inner loops. *)
Definition neighbourhood : list (Z * Z) :=
  dy ← [-1; 0; 1]; dx ← [-1; 0; 1]; [(dy, dx)].

Definition convolve (newWidth : Z) (data : Uint8ClampedArray) (i channel : Z)
  : float :=
  fold_left
    (fun sum '((dy, dx), k) =>
       let pixelIndex := i + (dy * newWidth + dx) * 4 + channel in
       (sum + data_get data pixelIndex * k)%float)
    (combine neighbourhood sharpenKernel) 0%float.

Definition sharpen_step (newWidth : Z) (i : Z) (data : Uint8ClampedArray)
  : Uint8ClampedArray :=
  fold_left
    (fun data channel =>
       data_set data (i + channel)
         (Math.max 0 (Math.min 255 (convolve newWidth data i channel))))
    [0; 1; 2] data.

(** The sharpening pass over the image that [getImageData] returns after the
    resize. *)
Definition sharpen (newWidth : Z) (data : Uint8ClampedArray)
  : Uint8ClampedArray :=
  let start := newWidth + 4 in
  let stop := data_length data - newWidth * 4 - 4 in
  for_loop (trips start stop) start (sharpen_step newWidth) data.

Section SuperResolution.
(** The canvas resize ([drawImage] with smoothing, then [getImageData]) is
    the browser's: source width, height and samples, target width and
    height. *)
Variable drawImage : Z -> Z -> Uint8ClampedArray -> Z -> Z -> Uint8ClampedArray.

End SuperResolution.

(** ** applyStyleTransfer *)

Definition style_switch (style : string) (intensity : float)
  (rgb : float * float * float) : float * float * float :=
  let '(r, g, b) := rgb in
  if String.eqb style "vintage" then
    let r := Math.min 255 ((r * 0.393 + g * 0.769 + b * 0.189) * intensity
                           + r * (1 - intensity))%float in
    let g := Math.min 255 ((r * 0.349 + g * 0.686 + b * 0.168) * intensity
                           + g * (1 - intensity))%float in
    let b := Math.min 255 ((r * 0.272 + g * 0.534 + b * 0.131) * intensity
                           + b * (1 - intensity))%float in
    (r, g, b)
  else if String.eqb style "cool" then
    let r := (r * (1 - intensity * 0.2))%float in
    let g := (g * (1 - intensity * 0.1))%float in
    let b := Math.min 255 (b * (1 + intensity * 0.3))%float in
    (r, g, b)
  else if String.eqb style "warm" then
    let r := Math.min 255 (r * (1 + intensity * 0.3))%float in
    let g := Math.min 255 (g * (1 + intensity * 0.1))%float in
    let b := (b * (1 - intensity * 0.2))%float in
    (r, g, b)
  else if String.eqb style "vivid" then
    let gray := (0.299 * r + 0.587 * g + 0.114 * b)%float in
    let r := Math.min 255 (gray + (r - gray) * (1 + intensity))%float in
    let g := Math.min 255 (gray + (g - gray) * (1 + intensity))%float in
    let b := Math.min 255 (gray + (b - gray) * (1 + intensity))%float in
    (r, g, b)
  else if String.eqb style "monochrome" then
    let mono := (0.299 * r + 0.587 * g + 0.114 * b)%float in
    let r := (mono * (1 - intensity) + r * intensity)%float in
    let g := (mono * (1 - intensity) + g * intensity)%float in
    let b := (mono * (1 - intensity) + b * intensity)%float in
    (r, g, b)
  else (r, g, b).

(** The three stores that end a turn of the tone loops. *)
Definition store_pixel (data : Uint8ClampedArray) (i : Z)
  (rgb : float * float * float) : Uint8ClampedArray :=
  let '(r, g, b) := rgb in
  let data := data_set data i (Math.max 0 (Math.min 255 r)) in
  let data := data_set data (i + 1) (Math.max 0 (Math.min 255 g)) in
  data_set data (i + 2) (Math.max 0 (Math.min 255 b)).

Definition load_pixel (data : Uint8ClampedArray) (i : Z)
  : float * float * float :=
  (data_get data i, data_get data (i + 1), data_get data (i + 2)).

Definition style_step (style : string) (intensity : float) (i : Z)
  (data : Uint8ClampedArray) : Uint8ClampedArray :=
  store_pixel data i (style_switch style intensity (load_pixel data i)).

Definition applyStyleTransfer (data : Uint8ClampedArray) (style : string)
  (intensity : float) : Uint8ClampedArray :=
  for_loop (trips 0 (data_length data)) 0 (style_step style intensity) data.

(** ** applyColorization *)

Definition scheme_switch (colorScheme : string) (intensity : float)
  (rgb : float * float * float) : float * float * float :=
  let '(r, g, b) := rgb in
  let gray := (0.299 * r + 0.587 * g + 0.114 * b)%float in
  if String.eqb colorScheme "natural" then
    ((gray * (1 + intensity * 0.2))%float,
     (gray * (1 + intensity * 0.1))%float,
     (gray * (1 - intensity * 0.1))%float)
  else if String.eqb colorScheme "cool" then
    ((gray * (1 - intensity * 0.3))%float,
     gray,
     (gray * (1 + intensity * 0.4))%float)
  else if String.eqb colorScheme "warm" then
    ((gray * (1 + intensity * 0.4))%float,
     (gray * (1 + intensity * 0.2))%float,
     (gray * (1 - intensity * 0.2))%float)
  else (r, g, b).

Definition colorize_step (colorScheme : string) (intensity : float) (i : Z)
  (data : Uint8ClampedArray) : Uint8ClampedArray :=
  store_pixel data i (scheme_switch colorScheme intensity (load_pixel data i)).

Definition applyColorization (data : Uint8ClampedArray) (colorScheme : string)
  (intensity : float) : Uint8ClampedArray :=
  for_loop (trips 0 (data_length data)) 0 (colorize_step colorScheme intensity)
    data.

(** ** Reference formulas

    What the statements below compare the loops with. *)

(** A loop body that writes only the three samples from its index on. *)
Definition writes_rgb (body : Z -> Uint8ClampedArray -> Uint8ClampedArray)
  : Prop :=
  forall i data (k : nat),
    (Z.of_nat k < i \/ i + 2 < Z.of_nat k) -> body i data !! k = data !! k.

(** [data[i] = f(data[i])] *)
Definition update (i : Z) (f : float -> float) (data : Uint8ClampedArray)
  : Uint8ClampedArray :=
  data_set data i (f (data_get data i)).

(** A turn of a tone loop around the function of its [switch]. *)
Definition tone_step (f : float * float * float -> float * float * float)
  (i : Z) (data : Uint8ClampedArray) : Uint8ClampedArray :=
  store_pixel data i (f (load_pixel data i)).

(** The byte that the two tone loops store for a computed channel. *)
Definition channel_byte (x : float) : Z :=
  ToUint8Clamp (Math.max 0 (Math.min 255 x)).

(** Whether clamping and storing the byte [v] gives [v] back. *)
Definition byte_kept (v : Z) : bool := channel_byte (Number v) =? v.

(** The five cases of the [switch] of [applyStyleTransfer]. *)
Definition known_style (style : string) : Prop :=
  style = "vintage"%string \/ style = "cool"%string \/ style = "warm"%string
  \/ style = "vivid"%string \/ style = "monochrome"%string.

(** [clamp(x, lo, hi)] *)
Definition clamp (x lo hi : float) : float := Math.max lo (Math.min hi x).

(** The restoration of one sample as the specification words it: the
    contrast stretch around 128 clamped to [0,255], then, when the strength
    is above 0.3, the blend towards 128; each result is held in a byte
    sample. *)
Definition restore_sample (strength : float) (v : Z) : Z :=
  let v' :=
    ToUint8Clamp (clamp ((Number v - 128) * (1 + 0.5 * strength) + 128) 0 255) in
  if (0.3 <? strength)%float then
    ToUint8Clamp (Number v' * (1 - 0.2 * strength) + 128 * (0.2 * strength))
  else v'.

(** The sepia formulas, one per channel, each over the values it is handed:
    [vintage_green] and [vintage_blue] take the red (and green) to use as
    arguments. *)
Definition vintage_red (intensity r g b : float) : float :=
  Math.min 255 ((r * 0.393 + g * 0.769 + b * 0.189) * intensity
                + r * (1 - intensity))%float.
Definition vintage_green (intensity r g b : float) : float :=
  Math.min 255 ((r * 0.349 + g * 0.686 + b * 0.168) * intensity
                + g * (1 - intensity))%float.
Definition vintage_blue (intensity r g b : float) : float :=
  Math.min 255 ((r * 0.272 + g * 0.534 + b * 0.131) * intensity
                + b * (1 - intensity))%float.

(** The three cases of the [switch] of [applyColorization]. *)
Definition known_scheme (colorScheme : string) : Prop :=
  colorScheme = "natural"%string \/ colorScheme = "cool"%string
  \/ colorScheme = "warm"%string.

(** The 256 byte samples. *)
Definition all_bytes : list Z := map Z.of_nat (seq 0 256).

(** Whether [data[i] = f(data[i])] gives the byte [v] back. *)
Definition stores_back (f : float -> float) (v : Z) : bool :=
  ToUint8Clamp (f (Number v)) =? v.

(** The stretch of the restoration filter at strength 0. *)
Definition stretch_0 (x : float) : float :=
  Math.min 255 ((x - 128) * (1 + 0 * 0.5) + 128)%float.

(** The channels of the cool and of the warm style at intensity 0, as the
    tone loop clamps them. *)
Definition cool_0 : list (float -> float) :=
  [ fun r => Math.max 0 (Math.min 255 (r * (1 - 0 * 0.2))%float);
    fun g => Math.max 0 (Math.min 255 (g * (1 - 0 * 0.1))%float);
    fun b => Math.max 0 (Math.min 255 (Math.min 255 (b * (1 + 0 * 0.3))%float)) ].
Definition warm_0 : list (float -> float) :=
  [ fun r => Math.max 0 (Math.min 255 (Math.min 255 (r * (1 + 0 * 0.3))%float));
    fun g => Math.max 0 (Math.min 255 (Math.min 255 (g * (1 + 0 * 0.1))%float));
    fun b => Math.max 0 (Math.min 255 (b * (1 - 0 * 0.2))%float) ].

(** A number that is [NaN] or not below zero, on the representation that
    the axioms of the primitive operations speak of. *)
Definition SF_nonneg (x : spec_float) : bool :=
  match x with
  | S754_nan => true
  | S754_zero _ => true
  | S754_infinity s => negb s
  | S754_finite s _ _ => negb s
  end.

(** The same without [-0]: what the score divides by. *)
Definition SF_divisor (x : spec_float) : bool :=
  match x with
  | S754_nan => true
  | S754_zero s => negb s
  | S754_infinity s => negb s
  | S754_finite s _ _ => negb s
  end.

(** A zero or [NaN]: what the tone formulas make of the samples of a black
    pixel. *)
Definition SF_zero_or_nan (x : spec_float) : bool :=
  match x with
  | S754_zero _ | S754_nan => true
  | _ => false
  end.
Definition zero_or_nan (x : float) : Prop := SF_zero_or_nan (Prim2SF x) = true.

(** [NaN], or a number of the range [0,10]. *)
Definition nan_or_0_to_10 (x : float) : Prop :=
  is_nan x = true \/ ((0 <=? x)%float = true /\ (x <=? 10)%float = true).

(** ** Test images *)

(** [pixels] pixels of one colour. *)
Definition uniform (pixels : nat) (r g b a : Z) : Uint8ClampedArray :=
  mjoin (replicate pixels [r; g; b; a]).

Definition mid_gray_4x4 : Uint8ClampedArray := uniform 16 128 128 128 255.

Definition black : list Z := [0; 0; 0; 255].
Definition white : list Z := [255; 255; 255; 255].
Definition green : list Z := [0; 255; 0; 255].

(** A 3x3 image, black with a white centre. *)
Definition dot_3x3 : Uint8ClampedArray :=
  mjoin [black; black; black; black; white; black; black; black; black].

(** A 1x4 image, black with a green second pixel. *)
Definition column_1x4 : Uint8ClampedArray :=
  mjoin [black; green; black; black].

(** * Properties *)

(** ** The store conversion *)

Lemma round_half_even_nonneg m e : 0 <= round_half_even m e.
Proof.
  unfold round_half_even.
  destruct e as [|p|p]; [lia | apply Z.mul_nonneg_nonneg; lia |].
  assert (Hd : 0 < 2 ^ Z.pos p) by (apply Z.pow_pos_nonneg; lia).
  assert (Hq : 0 <= Z.pos m / 2 ^ Z.pos p) by (apply Z.div_pos; lia).
  destruct (2 * (Z.pos m mod 2 ^ Z.pos p) ?= 2 ^ Z.pos p);
    [destruct (Z.even _) | |]; lia.
Qed.

Lemma ToUint8Clamp_sample x : sample (ToUint8Clamp x).
Proof.
  unfold sample, ToUint8Clamp.
  destruct (Prim2SF x) as [s|s| |s m e]; try destruct s; try lia.
  pose proof (round_half_even_nonneg m e). lia.
Qed.

(** ** Reads and writes *)

Lemma data_set_length data i x : length (data_set data i x) = length data.
Proof. unfold data_set. destruct (i <? 0); [done | apply length_insert]. Qed.

Lemma data_set_lookup_ne data i x (k : nat) :
  i <> Z.of_nat k -> data_set data i x !! k = data !! k.
Proof.
  intros Hne. unfold data_set. destruct (Z.ltb_spec i 0) as [Hi|Hi]; [done |].
  apply list_lookup_insert_ne. lia.
Qed.

Lemma data_set_lookup_eq data (k : nat) x :
  data_set data (Z.of_nat k) x !! k = (fun _ => ToUint8Clamp x) <$> data !! k.
Proof.
  unfold data_set. destruct (Z.ltb_spec (Z.of_nat k) 0) as [Hi|Hi]; [lia |].
  rewrite Nat2Z.id. destruct (data !! k) eqn:Hk; simpl.
  - apply list_lookup_insert_eq. eapply lookup_lt_Some; eauto.
  - rewrite list_insert_ge; [done |]. by apply lookup_ge_None.
Qed.

Lemma data_set_valid data i x : valid_buffer data -> valid_buffer (data_set data i x).
Proof.
  unfold valid_buffer, data_set. intros Hv. destruct (i <? 0); [done |].
  destruct (decide (Z.to_nat i < length data)%nat) as [Hlt|Hge].
  - apply Forall_insert; [done | apply ToUint8Clamp_sample].
  - rewrite list_insert_ge; [done | lia].
Qed.

Lemma data_get_lookup data (k : nat) v :
  data !! k = Some v -> data_get data (Z.of_nat k) = Number v.
Proof.
  intros Hk. unfold data_get. destruct (Z.ltb_spec (Z.of_nat k) 0) as [Hi|Hi]; [lia |].
  by rewrite Nat2Z.id, Hk.
Qed.

Lemma data_get_agree d d' (k : nat) :
  d !! k = d' !! k -> data_get d (Z.of_nat k) = data_get d' (Z.of_nat k).
Proof. intros H. unfold data_get. by rewrite Nat2Z.id, H. Qed.

(** ** Loops *)

Lemma for_loop_inv {St : Type} (P : St -> Prop) (Q : Z -> Prop)
  (body : Z -> St -> St) :
  (forall i s, Q i -> P s -> P (body i s)) ->
  (forall i, Q i -> Q (i + 4)) ->
  forall n i s, Q i -> P s -> P (for_loop n i body s).
Proof.
  intros Hbody Hnext n. induction n as [|n IH]; intros i s Hi Hs; simpl; auto.
Qed.

Lemma for_loop_app {St : Type} (body : Z -> St -> St) a b i s :
  for_loop (a + b) i body s
  = for_loop b (i + 4 * Z.of_nat a) body (for_loop a i body s).
Proof.
  revert i s. induction a as [|a IH]; intros i s.
  - simpl. f_equal. lia.
  - cbn [Nat.add for_loop]. rewrite IH. f_equal. lia.
Qed.

Lemma for_loop_below body n i data (k : nat) :
  writes_rgb body -> Z.of_nat k < i ->
  for_loop n i body data !! k = data !! k.
Proof.
  intros Hw. revert i data. induction n as [|n IH]; intros i data Hk; [done |].
  simpl. rewrite IH by lia. apply Hw. lia.
Qed.

Lemma for_loop_above body n i data (k : nat) :
  writes_rgb body -> i + 4 * Z.of_nat n - 1 <= Z.of_nat k ->
  for_loop n i body data !! k = data !! k.
Proof.
  intros Hw. revert i data. induction n as [|n IH]; intros i data Hk; [done |].
  simpl. rewrite IH by lia. apply Hw. lia.
Qed.

(** The sample [k] of pixel [p] after the loop is the one that turn [p]
    leaves, and turn [p] starts from a buffer that still holds the samples
    of pixel [p] and of those after it. *)
Lemma for_loop_pixel body n data (p k : nat) :
  writes_rgb body -> (p < n)%nat ->
  Z.of_nat k < 4 * Z.of_nat p + 4 ->
  exists before,
    for_loop n 0 body data !! k = body (4 * Z.of_nat p) before !! k
    /\ forall j : nat, 4 * Z.of_nat p - 1 <= Z.of_nat j -> before !! j = data !! j.
Proof.
  intros Hw Hp Hk. exists (for_loop p 0 body data). split.
  - replace n with (p + (1 + (n - p - 1)))%nat by lia.
    rewrite for_loop_app, for_loop_app. cbn [for_loop Z.add].
    rewrite for_loop_below by (done || lia). done.
  - intros j Hj. apply for_loop_above; [done | lia].
Qed.

Lemma trips_covers len (k : nat) :
  Z.of_nat k < len -> (k / 4 < trips 0 len)%nat.
Proof.
  intros Hk. unfold trips.
  assert (Z.of_nat (k / 4) < (len - 0 + 3) / 4); [| lia].
  rewrite Nat2Z.inj_div. change (Z.of_nat 4) with 4.
  apply Z.div_lt_upper_bound; [lia |].
  pose proof (Z.mul_div_le (Z.of_nat k) 4 ltac:(lia)).
  pose proof (Z.mod_pos_bound (len - 0 + 3) 4 ltac:(lia)).
  pose proof (Z.div_mod (len - 0 + 3) 4 ltac:(lia)).
  pose proof (Z.div_mod (Z.of_nat k) 4 ltac:(lia)).
  pose proof (Z.mod_pos_bound (Z.of_nat k) 4 ltac:(lia)).
  lia.
Qed.

(** ** What a turn of each loop writes *)

Lemma store_pixel_valid data i rgb :
  valid_buffer data -> valid_buffer (store_pixel data i rgb).
Proof.
  destruct rgb as [[r g] b]. unfold store_pixel. auto using data_set_valid.
Qed.

Lemma restoration_step_valid strength i data :
  valid_buffer data -> valid_buffer (restoration_step strength i data).
Proof.
  intros Hv. unfold restoration_step.
  destruct (0.3 <? strength)%float; auto 10 using data_set_valid.
Qed.

Lemma sharpen_step_valid newWidth i data :
  valid_buffer data -> valid_buffer (sharpen_step newWidth i data).
Proof.
  intros Hv. unfold sharpen_step. cbn [fold_left]. auto using data_set_valid.
Qed.

Lemma store_pixel_frame data i rgb (k : nat) :
  (Z.of_nat k < i \/ i + 2 < Z.of_nat k) -> store_pixel data i rgb !! k = data !! k.
Proof.
  intros Hk. destruct rgb as [[r g] b]. unfold store_pixel.
  rewrite !data_set_lookup_ne by lia. done.
Qed.

Lemma style_step_writes_rgb style intensity :
  writes_rgb (style_step style intensity).
Proof. intros i data k Hk. by apply store_pixel_frame. Qed.

Lemma colorize_step_writes_rgb colorScheme intensity :
  writes_rgb (colorize_step colorScheme intensity).
Proof. intros i data k Hk. by apply store_pixel_frame. Qed.

Lemma restoration_step_writes_rgb strength :
  writes_rgb (restoration_step strength).
Proof.
  intros i data k Hk. unfold restoration_step.
  destruct (0.3 <? strength)%float; rewrite !data_set_lookup_ne by lia; done.
Qed.

(** A loop that starts at 0 leaves the fourth sample of every pixel. *)
Lemma for_loop_alpha body n data (p : nat) :
  writes_rgb body ->
  for_loop n 0 body data !! (4 * p + 3)%nat = data !! (4 * p + 3)%nat.
Proof.
  intros Hw.
  apply (for_loop_inv
           (fun d => d !! (4 * p + 3)%nat = data !! (4 * p + 3)%nat)
           (fun i => exists j : Z, i = 4 * j)).
  - intros i s [j ->] Hs. rewrite <- Hs. apply Hw. lia.
  - intros i [j ->]. exists (j + 1). lia.
  - exists 0. lia.
  - done.
Qed.

(** ** Saturation *)

(** C1: on a buffer of byte samples, every sample after the restoration
    filter, after the sharpening pass of the super-resolution filter, after
    the style transfer and after the colorization lies in [0,255], whatever
    the width, the strength, the style, the colour scheme and the intensity
    are.  (The attention score only reads the buffer: it has no store.) *)
Theorem saturation_invariant (data : Uint8ClampedArray) (width : Z)
  (strength intensity : float) (style colorScheme : string) :
  valid_buffer data ->
  valid_buffer (applyRestorationFilter data strength)
  /\ valid_buffer (sharpen width data)
  /\ valid_buffer (applyStyleTransfer data style intensity)
  /\ valid_buffer (applyColorization data colorScheme intensity).
Proof.
  intros Hv. repeat split.
  - apply (for_loop_inv valid_buffer (fun _ => True)); auto.
    intros; by apply restoration_step_valid.
  - apply (for_loop_inv valid_buffer (fun _ => True)); auto.
    intros; by apply sharpen_step_valid.
  - apply (for_loop_inv valid_buffer (fun _ => True)); auto.
    intros; by apply store_pixel_valid.
  - apply (for_loop_inv valid_buffer (fun _ => True)); auto.
    intros; by apply store_pixel_valid.
Qed.

Lemma saturation_invariant_witness :
  valid_buffer (applyRestorationFilter [0; 128; 255; 255; 200; 17; 64; 9] 1)
  /\ valid_buffer (sharpen 2 [0; 128; 255; 255; 200; 17; 64; 9])
  /\ valid_buffer (applyStyleTransfer [0; 128; 255; 255; 200; 17; 64; 9] "vivid" 1)
  /\ valid_buffer (applyColorization [0; 128; 255; 255; 200; 17; 64; 9] "cool" 1).
Proof.
  apply (saturation_invariant [0; 128; 255; 255; 200; 17; 64; 9] 2 1 1
           "vivid" "cool").
  unfold valid_buffer, sample. repeat constructor; lia.
Defined.

(** ** Alpha *)

(** C10: the restoration filter, the style transfer and the colorization
    leave the fourth sample of every pixel as it was, for every buffer and
    every parameter. *)
Theorem alpha_untouched (data : Uint8ClampedArray) (strength intensity : float)
  (style colorScheme : string) (p : nat) :
  applyRestorationFilter data strength !! (4 * p + 3)%nat = data !! (4 * p + 3)%nat
  /\ applyStyleTransfer data style intensity !! (4 * p + 3)%nat
     = data !! (4 * p + 3)%nat
  /\ applyColorization data colorScheme intensity !! (4 * p + 3)%nat
     = data !! (4 * p + 3)%nat.
Proof.
  repeat split; apply for_loop_alpha.
  - apply restoration_step_writes_rgb.
  - apply style_step_writes_rgb.
  - apply colorize_step_writes_rgb.
Qed.

(** ** Stores of a byte *)

Lemma byte_kept_all : forallb byte_kept (map Z.of_nat (seq 0 256)) = true.
Proof. vm_compute. reflexivity. Qed.

Lemma sample_enumerated v : sample v -> In v (map Z.of_nat (seq 0 256)).
Proof.
  intros [Hlo Hhi]. rewrite <- (Z2Nat.id v Hlo). apply in_map, in_seq. lia.
Qed.

(** Clamping a byte to [0,255] and storing it gives the byte back. *)
Lemma clamp_store_sample v : sample v -> channel_byte (Number v) = v.
Proof.
  intros Hv. apply Z.eqb_eq.
  exact (proj1 (forallb_forall _ _) byte_kept_all v (sample_enumerated v Hv)).
Qed.

Lemma data_set_get_id data i :
  valid_buffer data ->
  data_set data i (Math.max 0 (Math.min 255 (data_get data i))) = data.
Proof.
  intros Hv. unfold data_set, data_get. destruct (i <? 0); [done |].
  destruct (data !! Z.to_nat i) as [v|] eqn:Hi.
  - apply list_insert_id. rewrite Hi. f_equal. symmetry.
    apply clamp_store_sample.
    eapply (proj1 (Forall_lookup _ _) Hv); eauto.
  - apply list_insert_ge. by apply lookup_ge_None.
Qed.

Lemma store_load_pixel data i :
  valid_buffer data -> store_pixel data i (load_pixel data i) = data.
Proof.
  intros Hv. unfold store_pixel, load_pixel.
  rewrite (data_set_get_id data i Hv).
  rewrite (data_set_get_id data (i + 1) Hv).
  apply (data_set_get_id data (i + 2) Hv).
Qed.

Lemma style_switch_unknown style intensity rgb :
  ~ known_style style -> style_switch style intensity rgb = rgb.
Proof.
  intros Hs. unfold style_switch. destruct rgb as [[r g] b].
  repeat match goal with
         | |- context [String.eqb style ?s] =>
             destruct (String.eqb_spec style s) as [He|_];
             [exfalso; apply Hs; unfold known_style; tauto |]
         end.
  reflexivity.
Qed.

(** ** Style transfer with a style that the switch does not know *)

(** C9: for every buffer of byte samples and every intensity, a style string
    outside of vintage, cool, warm, vivid and monochrome leaves every sample
    of the buffer as it was. *)
Theorem unknown_style_identity (data : Uint8ClampedArray) (style : string)
  (intensity : float) :
  valid_buffer data -> ~ known_style style ->
  applyStyleTransfer data style intensity = data.
Proof.
  intros Hv Hs. unfold applyStyleTransfer.
  apply (for_loop_inv (fun d => d = data) (fun _ => True)); auto.
  intros i d _ ->. unfold style_step.
  rewrite style_switch_unknown by done. by apply store_load_pixel.
Qed.

Lemma unknown_style_identity_witness :
  applyStyleTransfer [12; 0; 255; 77; 128; 64; 1; 0] "sepia" 0.5
  = [12; 0; 255; 77; 128; 64; 1; 0].
Proof.
  apply (unknown_style_identity [12; 0; 255; 77; 128; 64; 1; 0] "sepia" 0.5).
  - unfold valid_buffer, sample. repeat constructor; lia.
  - unfold known_style. intros [H|[H|[H|[H|H]]]]; discriminate H.
Defined.

(** ** Numbers *)

Lemma SFmul_comm x y : SFmul prec emax x y = SFmul prec emax y x.
Proof.
  destruct x as [sx|sx| |sx mx ex], y as [sy|sy| |sy my ey]; simpl;
    rewrite ?(xorb_comm sx sy); try reflexivity.
  by rewrite (Pos.mul_comm mx my), (Z.add_comm ex ey).
Qed.

Lemma float_mul_comm (x y : float) : (x * y)%float = (y * x)%float.
Proof.
  apply Prim2SF_inj. rewrite !FloatAxioms.mul_spec. apply SFmul_comm.
Qed.

Lemma ToUint8Clamp_nan x : is_nan x = true -> ToUint8Clamp x = 0.
Proof. intros Hn. unfold ToUint8Clamp, Prim2SF. by rewrite Hn. Qed.

(** The store clamps below by itself: [Math.max 0] before it changes
    nothing. *)
Lemma ToUint8Clamp_max_0 (y : float) :
  ToUint8Clamp (Math.max 0 y) = ToUint8Clamp y.
Proof.
  unfold Math.max. change (is_nan 0) with false. cbn [orb].
  destruct (is_nan y) eqn:Hn.
  { by rewrite (ToUint8Clamp_nan y Hn). }
  rewrite !FloatAxioms.ltb_spec. change (Prim2SF 0) with (S754_zero false).
  destruct (SFltb (S754_zero false) (Prim2SF y)) eqn:H1; [done |].
  change (get_sign 0) with false.
  assert (ToUint8Clamp y = 0) as ->.
  { unfold ToUint8Clamp.
    destruct (Prim2SF y) as [s|[]| |[] m e]; try done; discriminate H1. }
  by destruct (SFltb (Prim2SF y) (S754_zero false)).
Qed.

(** ** Restoration, sample by sample *)

Lemma update_lookup i f data (k : nat) :
  update i f data !! k
  = if decide (i = Z.of_nat k)
    then (fun v => ToUint8Clamp (f (Number v))) <$> data !! k
    else data !! k.
Proof.
  unfold update. case_decide as Hi.
  - subst i. rewrite data_set_lookup_eq.
    destruct (data !! k) as [v|] eqn:Hk; [| done].
    by rewrite (data_get_lookup _ _ _ Hk).
  - by apply data_set_lookup_ne.
Qed.

Lemma restoration_step_updates strength i data :
  restoration_step strength i data
  = let stretch x :=
      Math.min 255 ((x - 128) * (1 + strength * 0.5) + 128)%float in
    let blend x :=
      (x * (1 - strength * 0.2) + 128 * (strength * 0.2))%float in
    let stretched := update (i + 2) stretch (update (i + 1) stretch
                       (update i stretch data)) in
    if (0.3 <? strength)%float then
      update (i + 2) blend (update (i + 1) blend (update i blend stretched))
    else stretched.
Proof. reflexivity. Qed.

Lemma restoration_step_lookup strength i data (k : nat) v :
  i <= Z.of_nat k <= i + 2 -> data !! k = Some v ->
  restoration_step strength i data !! k = Some (restore_sample strength v).
Proof.
  intros Hk Hv. rewrite restoration_step_updates. cbv zeta.
  unfold restore_sample, clamp. rewrite ToUint8Clamp_max_0.
  rewrite !(float_mul_comm _ strength).
  destruct (0.3 <? strength)%float; rewrite !update_lookup;
    repeat case_decide; try lia; rewrite Hv; reflexivity.
Qed.

Lemma pixel_of_sample (k : nat) :
  4 * Z.of_nat (k / 4) <= Z.of_nat k < 4 * Z.of_nat (k / 4) + 4
  /\ ((k mod 4 <> 3)%nat -> Z.of_nat k <= 4 * Z.of_nat (k / 4) + 2).
Proof.
  pose proof (Nat.div_mod_eq k 4) as Hk.
  pose proof (Nat.mod_upper_bound k 4 ltac:(lia)) as Hm.
  lia.
Qed.

(** C6: for every buffer and every strength, the restoration filter maps each
    colour sample [v] on its own to the contrast stretch
    [(v - 128) * (1 + 0.5 * strength) + 128] clamped to [0,255] on both
    sides, and, exactly when [strength > 0.3], replaces that result [v'] by
    [v' * (1 - 0.2 * strength) + 128 * (0.2 * strength)]; the results are
    byte samples, so each of the two is held as the store converts it. *)
Theorem restore_per_sample (data : Uint8ClampedArray) (strength : float)
  (k : nat) (v : Z) :
  data !! k = Some v -> (k mod 4 <> 3)%nat ->
  applyRestorationFilter data strength !! k = Some (restore_sample strength v).
Proof.
  intros Hv Hc. unfold applyRestorationFilter.
  destruct (pixel_of_sample k) as [[Hlo Hhi] Hrgb]. specialize (Hrgb Hc).
  assert (Hlen : Z.of_nat k < data_length data).
  { unfold data_length. apply lookup_lt_Some in Hv. lia. }
  destruct (for_loop_pixel (restoration_step strength)
              (trips 0 (data_length data)) data (k / 4) k
              (restoration_step_writes_rgb strength)
              (trips_covers _ _ Hlen) Hhi) as (before & -> & Hsame).
  apply restoration_step_lookup; [lia |].
  rewrite Hsame by lia. exact Hv.
Qed.

(** The stretch is clamped on both sides, and 0.3 itself does not blend. *)
Lemma restore_sample_examples :
  restore_sample 0.3 0 = 0 /\ restore_sample 0.3 255 = 255
  /\ restore_sample 0.3 129 = 129
  /\ restore_sample 1 0 = 26 /\ restore_sample 1 255 = 230
  /\ restore_sample 1 129 = 130.
Proof. by vm_compute. Qed.

Lemma restore_per_sample_witness :
  applyRestorationFilter [129; 0; 255; 255; 100; 200; 50; 7] 1 !! 5%nat
  = Some (restore_sample 1 200).
Proof.
  apply (restore_per_sample [129; 0; 255; 255; 100; 200; 50; 7] 1 5 200).
  - reflexivity.
  - simpl. lia.
Defined.

(** ** Tone loops, pixel by pixel *)

Lemma tone_step_writes_rgb f : writes_rgb (tone_step f).
Proof. intros i data k Hk. by apply store_pixel_frame. Qed.

Lemma tone_step_pixel f data (p : nat) r g b :
  data !! (4 * p)%nat = Some r ->
  data !! (4 * p + 1)%nat = Some g ->
  data !! (4 * p + 2)%nat = Some b ->
  let out := tone_step f (4 * Z.of_nat p) data in
  let '(r', g', b') := f (Number r, Number g, Number b) in
  out !! (4 * p)%nat = Some (channel_byte r')
  /\ out !! (4 * p + 1)%nat = Some (channel_byte g')
  /\ out !! (4 * p + 2)%nat = Some (channel_byte b').
Proof.
  intros Hr Hg Hb. unfold tone_step, load_pixel.
  assert (E0 : 4 * Z.of_nat p = Z.of_nat (4 * p)) by lia.
  assert (E1 : Z.of_nat (4 * p) + 1 = Z.of_nat (4 * p + 1)) by lia.
  assert (E2 : Z.of_nat (4 * p) + 2 = Z.of_nat (4 * p + 2)) by lia.
  rewrite E0, E1, E2.
  rewrite (data_get_lookup _ _ _ Hr), (data_get_lookup _ _ _ Hg),
    (data_get_lookup _ _ _ Hb).
  destruct (f (Number r, Number g, Number b)) as [[r' g'] b'].
  unfold store_pixel, channel_byte. cbv zeta. rewrite E1, E2. repeat split.
  - rewrite !data_set_lookup_ne by lia. by rewrite data_set_lookup_eq, Hr.
  - rewrite data_set_lookup_ne by lia.
    rewrite data_set_lookup_eq, data_set_lookup_ne by lia. by rewrite Hg.
  - rewrite data_set_lookup_eq, !data_set_lookup_ne by lia. by rewrite Hb.
Qed.

Lemma tone_loop_pixel f data (p : nat) r g b :
  data !! (4 * p)%nat = Some r ->
  data !! (4 * p + 1)%nat = Some g ->
  data !! (4 * p + 2)%nat = Some b ->
  let out := for_loop (trips 0 (data_length data)) 0 (tone_step f) data in
  let '(r', g', b') := f (Number r, Number g, Number b) in
  out !! (4 * p)%nat = Some (channel_byte r')
  /\ out !! (4 * p + 1)%nat = Some (channel_byte g')
  /\ out !! (4 * p + 2)%nat = Some (channel_byte b').
Proof.
  intros Hr Hg Hb out.
  assert (Hn : (p < trips 0 (data_length data))%nat).
  { apply lookup_lt_Some in Hb.
    replace p with ((4 * p + 2) / 4)%nat at 1.
    - apply trips_covers. unfold data_length. lia.
    - symmetry. apply (Nat.div_unique _ 4 p 2); lia. }
  assert (Hpix : forall k : nat, (4 * p <= k <= 4 * p + 2)%nat ->
            exists before, out !! k = tone_step f (4 * Z.of_nat p) before !! k
              /\ before !! (4 * p)%nat = Some r
              /\ before !! (4 * p + 1)%nat = Some g
              /\ before !! (4 * p + 2)%nat = Some b).
  { intros k Hk.
    destruct (for_loop_pixel (tone_step f) (trips 0 (data_length data)) data
                p k (tone_step_writes_rgb f) Hn ltac:(lia))
      as (before & Hout & Hsame).
    exists before. rewrite !Hsame by lia. auto. }
  pose proof (tone_step_pixel f) as Hstep. cbv zeta in Hstep.
  destruct (f (Number r, Number g, Number b)) as [[r' g'] b'] eqn:Hf.
  repeat split.
  - destruct (Hpix (4 * p)%nat ltac:(lia)) as (d & -> & H0 & H1 & H2).
    specialize (Hstep d p r g b H0 H1 H2). rewrite Hf in Hstep. tauto.
  - destruct (Hpix (4 * p + 1)%nat ltac:(lia)) as (d & -> & H0 & H1 & H2).
    specialize (Hstep d p r g b H0 H1 H2). rewrite Hf in Hstep. tauto.
  - destruct (Hpix (4 * p + 2)%nat ltac:(lia)) as (d & -> & H0 & H1 & H2).
    specialize (Hstep d p r g b H0 H1 H2). rewrite Hf in Hstep. tauto.
Qed.

(** ** The vintage branch *)

(** C7: in the vintage branch, for every pixel of every buffer, the stored
    green is the sepia green of the updated red [r1] (not of the pixel's
    red), and the stored blue is the sepia blue of [r1] and of the updated
    green [g1]: the three updates are a chain.  On the pixel (100,50,20) at
    intensity 1 the chain stores green 66 and blue 60, where the formulas
    over the pixel's own red and green would store 73 and 57. *)
Theorem vintage_sequential_chain (data : Uint8ClampedArray) (intensity : float)
  (p : nat) (r g b : Z) :
  data !! (4 * p)%nat = Some r ->
  data !! (4 * p + 1)%nat = Some g ->
  data !! (4 * p + 2)%nat = Some b ->
  let out := applyStyleTransfer data "vintage" intensity in
  let r1 := vintage_red intensity (Number r) (Number g) (Number b) in
  let g1 := vintage_green intensity r1 (Number g) (Number b) in
  let b1 := vintage_blue intensity r1 g1 (Number b) in
  (out !! (4 * p)%nat = Some (channel_byte r1)
   /\ out !! (4 * p + 1)%nat = Some (channel_byte g1)
   /\ out !! (4 * p + 2)%nat = Some (channel_byte b1))
  /\ applyStyleTransfer [100; 50; 20; 255] "vintage" 1 = [82; 66; 60; 255]
  /\ channel_byte (vintage_green 1 100 50 20) = 73
  /\ channel_byte (vintage_blue 1 100 50 20) = 57.
Proof.
  intros Hr Hg Hb. cbv zeta. split; [| by vm_compute].
  exact (tone_loop_pixel (style_switch "vintage" intensity) data p r g b
           Hr Hg Hb).
Qed.

Lemma vintage_sequential_chain_witness :
  let data := [100; 50; 20; 255; 7; 200; 90; 255] in
  let out := applyStyleTransfer data "vintage" 0.5 in
  let r1 := vintage_red 0.5 7 200 90 in
  let g1 := vintage_green 0.5 r1 200 90 in
  let b1 := vintage_blue 0.5 r1 g1 90 in
  (out !! 4%nat = Some (channel_byte r1)
   /\ out !! 5%nat = Some (channel_byte g1)
   /\ out !! 6%nat = Some (channel_byte b1))
  /\ applyStyleTransfer [100; 50; 20; 255] "vintage" 1 = [82; 66; 60; 255]
  /\ channel_byte (vintage_green 1 100 50 20) = 73
  /\ channel_byte (vintage_blue 1 100 50 20) = 57.
Proof.
  exact (vintage_sequential_chain [100; 50; 20; 255; 7; 200; 90; 255] 0.5 1
           7 200 90 eq_refl eq_refl eq_refl).
Defined.

(** ** Colorization of mid gray *)

(** C5, as stated, fails: the warm scheme does not keep the green of mid
    gray at 128.  The first pixel of the output has green 141. *)
Lemma colorize_warm_green_moves :
  ~ (forall p : nat, (p < 16)%nat ->
       exists r b : Z,
         applyColorization mid_gray_4x4 "warm" 0.5 !! (4 * p)%nat = Some r
         /\ applyColorization mid_gray_4x4 "warm" 0.5 !! (4 * p + 1)%nat
            = Some 128
         /\ applyColorization mid_gray_4x4 "warm" 0.5 !! (4 * p + 2)%nat
            = Some b
         /\ 128 < r /\ b < 128).
Proof.
  intros H. destruct (H 0%nat ltac:(lia)) as (r & b & _ & Hg & _).
  vm_compute in Hg. discriminate Hg.
Qed.

(** C5, amended: the warm scheme at intensity 0.5 turns the 4x4 mid-gray
    buffer into the uniform buffer of (154,141,115,255): red above 128, blue
    below 128, green raised to 141, alpha kept. *)
Theorem colorize_warm_mid_gray :
  applyColorization mid_gray_4x4 "warm" 0.5 = uniform 16 154 141 115 255
  /\ 128 < 154 /\ 115 < 128 /\ 128 < 141.
Proof. split; [by vm_compute | lia]. Qed.

(** ** Style transfer at intensity 0 *)

(** C2 at the monochrome style: at intensity 0 the pure red pixel becomes the
    gray (76,76,76), and it is at intensity 1 that the pixel is kept, where
    the four other styles keep the pixel at intensity 0: the weights of the
    blend of this branch are those of the vintage branch, swapped. *)
Theorem monochrome_intensity_swapped :
  applyStyleTransfer [255; 0; 0; 255] "monochrome" 0 = [76; 76; 76; 255]
  /\ applyStyleTransfer [255; 0; 0; 255] "monochrome" 1 = [255; 0; 0; 255]
  /\ applyStyleTransfer [255; 0; 0; 255] "vintage" 0 = [255; 0; 0; 255]
  /\ applyStyleTransfer [255; 0; 0; 255] "cool" 0 = [255; 0; 0; 255]
  /\ applyStyleTransfer [255; 0; 0; 255] "warm" 0 = [255; 0; 0; 255]
  /\ applyStyleTransfer [255; 0; 0; 255] "vivid" 0 = [255; 0; 0; 255].
Proof. by vm_compute. Qed.

(** ** The start offset of the Laplacian and of the sharpening loops *)

(** C3 at its failing inputs: the loop starts at [width + 4], not at the
    second pixel of the second row.  On the 3x3 image its first turn is at
    index 7, an alpha sample of the first row, and reads above the image:
    the score is [NaN], not the Laplacian of the centre.  On the 1x4 image,
    of width below 3, the loop makes a turn at index 5 and the score is
    positive, not 0. *)
Theorem attention_score_start_offset :
  is_nan (calculateAttentionScore 3 dot_3x3) = true
  /\ trips (3 + 4) (data_length dot_3x3 - 3 * 4 - 4) = 4%nat
  /\ (0 <? calculateAttentionScore 1 column_1x4)%float = true
  /\ trips (1 + 4) (data_length column_1x4 - 1 * 4 - 4) = 1%nat.
Proof. by vm_compute. Qed.

(** C8 at its failing input: on the uniform 4x4 image of (100,100,100,255)
    the loop starts in the first row, reads the row above the image, and the
    score is [NaN], not 0. *)
Theorem attention_score_uniform_nan :
  is_nan (calculateAttentionScore 4 (uniform 16 100 100 100 255)) = true
  /\ (calculateAttentionScore 4 (uniform 16 100 100 100 255) =? 0)%float = false.
Proof. by vm_compute. Qed.

(** C4 at its failing inputs: on the uniform 4x4 image the sharpening loop
    starts at the third pixel of the first row and zeroes the colour samples
    of border pixels (sample 8, in the first row, and sample 16, first of the
    second row); on the uniform 3x3 image its turns are at alpha samples and
    it zeroes sample 7, the alpha of the second pixel. *)
Theorem sharpen_start_offset :
  uniform 16 100 100 100 255 !! 8%nat = Some 100
  /\ sharpen 4 (uniform 16 100 100 100 255) !! 8%nat = Some 0
  /\ sharpen 4 (uniform 16 100 100 100 255) !! 16%nat = Some 0
  /\ uniform 9 100 100 100 255 !! 7%nat = Some 255
  /\ sharpen 3 (uniform 9 100 100 100 255) !! 7%nat = Some 0.
Proof. by vm_compute. Qed.

(** ** NaN *)

Lemma SFcompare_refl x : x <> S754_nan -> SFcompare x x = Some Eq.
Proof.
  destruct x as [s|[]| |[] m e]; try done; intros _; simpl;
    by rewrite Z.compare_refl, Pos.compare_cont_refl.
Qed.

Lemma is_nan_spec (x : float) : is_nan x = true <-> Prim2SF x = S754_nan.
Proof.
  unfold is_nan. rewrite FloatAxioms.eqb_spec. unfold SFeqb. split.
  - intros H. destruct (Prim2SF x) as [s|s| |s m e] eqn:Hx; [| |done|];
      by rewrite SFcompare_refl in H.
  - by intros ->.
Qed.

Lemma add_nan_l (x y : float) : is_nan x = true -> is_nan (x + y) = true.
Proof.
  rewrite !is_nan_spec, FloatAxioms.add_spec. by intros ->.
Qed.

Lemma add_nan_r (x y : float) : is_nan y = true -> is_nan (x + y) = true.
Proof.
  rewrite !is_nan_spec, FloatAxioms.add_spec. intros ->.
  by destruct (Prim2SF x) as [?|?| |? ? ?].
Qed.

Lemma sub_nan_l (x y : float) : is_nan x = true -> is_nan (x - y) = true.
Proof.
  rewrite !is_nan_spec, FloatAxioms.sub_spec. by intros ->.
Qed.

Lemma sub_nan_r (x y : float) : is_nan y = true -> is_nan (x - y) = true.
Proof.
  rewrite !is_nan_spec, FloatAxioms.sub_spec. intros ->.
  by destruct (Prim2SF x) as [?|?| |? ? ?].
Qed.

Lemma mul_nan_l (x y : float) : is_nan x = true -> is_nan (x * y) = true.
Proof.
  rewrite !is_nan_spec, FloatAxioms.mul_spec. by intros ->.
Qed.

Lemma div_nan_l (x y : float) : is_nan x = true -> is_nan (x / y) = true.
Proof.
  rewrite !is_nan_spec, FloatAxioms.div_spec. by intros ->.
Qed.

Lemma abs_nan (x : float) : is_nan x = true -> is_nan (Math.abs x) = true.
Proof.
  unfold Math.abs. rewrite !is_nan_spec, FloatAxioms.abs_spec. by intros ->.
Qed.

Lemma min_nan_l (x y : float) : is_nan x = true -> is_nan (Math.min x y) = true.
Proof. intros H. unfold Math.min. by rewrite H. Qed.

Lemma data_get_before data i : i < 0 -> is_nan (data_get data i) = true.
Proof.
  intros Hi. unfold data_get. by destruct (Z.ltb_spec i 0); [| lia].
Qed.

(** ** The score of an image of width 2 or more *)

Lemma attention_step_nan_sum width data i sum count :
  is_nan sum = true ->
  is_nan (fst (attention_step width data i (sum, count))) = true
  /\ snd (attention_step width data i (sum, count)) = count + 1.
Proof. intros Hs. split; [| done]. by apply add_nan_l. Qed.

Lemma attention_step_reads_above width data i acc :
  i - width * 4 < 0 ->
  is_nan (fst (attention_step width data i acc)) = true
  /\ snd (attention_step width data i acc) = snd acc + 1.
Proof.
  intros Hi. destruct acc as [sum count]. split; [| done].
  cbn [attention_step fst]. apply add_nan_r, abs_nan.
  do 3 apply sub_nan_l. apply sub_nan_r.
  do 2 apply add_nan_l. apply mul_nan_l. by apply data_get_before.
Qed.

(** Whenever the width is 2 or more and the loop makes a turn, its first
    turn, at [width + 4], is in the first row and reads the row above the
    image: the score is [NaN], whatever the samples are. *)
Lemma attention_score_nan (width : Z) (data : Uint8ClampedArray) :
  2 <= width -> 5 * width + 8 < data_length data ->
  is_nan (calculateAttentionScore width data) = true.
Proof.
  intros Hw Hlen. unfold calculateAttentionScore.
  destruct (trips (width + 4) (data_length data - width * 4 - 4))
    as [|n] eqn:Hn.
  { unfold trips in Hn.
    assert (1 <= (data_length data - width * 4 - 4 - (width + 4) + 3) / 4)
      by (apply Z.div_le_lower_bound; lia).
    lia. }
  cbn [for_loop].
  destruct (attention_step_reads_above width data (width + 4) (0%float, 0)
              ltac:(lia)) as [Hsum Hcount].
  assert (Hinv : forall acc,
            is_nan (fst acc) = true /\ 0 < snd acc ->
            is_nan (fst (for_loop n (width + 4 + 4)
                           (attention_step width data) acc)) = true
            /\ 0 < snd (for_loop n (width + 4 + 4)
                          (attention_step width data) acc)).
  { intros acc Hacc.
    apply (for_loop_inv
             (fun acc => is_nan (fst acc) = true /\ 0 < snd acc)
             (fun _ => True)); auto.
    intros i [sum count] _ [Hs Hc]. cbn [fst snd] in Hs, Hc.
    destruct (attention_step_nan_sum width data i sum count Hs) as [-> ->].
    split; [done | lia]. }
  assert (Hpos : 0 < snd (attention_step width data (width + 4) (0%float, 0)))
    by (rewrite Hcount; cbn [snd]; lia).
  specialize (Hinv _ (conj Hsum Hpos)).
  destruct (for_loop n _ _ _) as [sum count]. cbn [fst snd] in Hinv.
  destruct Hinv as [Hs Hc].
  destruct (Z.ltb_spec 0 count); [| lia].
  by apply min_nan_l, div_nan_l, div_nan_l.
Qed.

(** ** What the sharpening pass writes *)

Lemma sharpen_step_writes_rgb newWidth : writes_rgb (sharpen_step newWidth).
Proof.
  intros i data k Hk. unfold sharpen_step. cbn [fold_left].
  rewrite !data_set_lookup_ne by lia. done.
Qed.

(** X8: the sharpening pass does not write the samples before index
    [newWidth + 4] nor those from the last pixel of the row before the last
    on: the last row of the image is never sharpened. *)
Lemma sharpen_frame (newWidth : Z) (data : Uint8ClampedArray) (k : nat) :
  Z.of_nat k < newWidth + 4
  \/ data_length data - newWidth * 4 - 4 + 2 <= Z.of_nat k ->
  sharpen newWidth data !! k = data !! k.
Proof.
  intros [Hk|Hk]; unfold sharpen.
  - by apply for_loop_below; [apply sharpen_step_writes_rgb |].
  - unfold trips.
    set (d := data_length data - newWidth * 4 - 4 - (newWidth + 4) + 3) in *.
    destruct (Z.le_gt_cases 0 d) as [Hd|Hd].
    + apply for_loop_above; [apply sharpen_step_writes_rgb |].
      rewrite Z2Nat.id by (apply Z.div_pos; lia).
      pose proof (Z.mul_div_le d 4 ltac:(lia)). lia.
    + assert (d / 4 < 0) by (apply Z.div_lt_upper_bound; lia).
      by replace (Z.to_nat (d / 4)) with 0%nat by lia.
Qed.

Lemma convolve_reads_above newWidth data i channel :
  i + (-1 * newWidth + -1) * 4 + channel < 0 ->
  is_nan (convolve newWidth data i channel) = true.
Proof.
  intros Hi. unfold convolve.
  cbn [neighbourhood sharpenKernel mbind list_bind mret list_ret
         list_fmap app combine fold_left].
  do 8 apply add_nan_l. apply add_nan_r, mul_nan_l. by apply data_get_before.
Qed.

Lemma channel_byte_nan x : is_nan x = true -> channel_byte x = 0.
Proof.
  intros Hx. unfold channel_byte, Math.min, Math.max.
  rewrite Hx, orb_true_r. reflexivity.
Qed.

(** X9: whenever the sharpening loop makes a turn, the first one, at
    [newWidth + 4], reads above the image and stores 0 there: for a width of
    2 or more that is a sample of the first row. *)
Lemma sharpen_zeroes_first_row (newWidth : Z) (data : Uint8ClampedArray) :
  1 <= newWidth -> 5 * newWidth + 8 < data_length data ->
  sharpen newWidth data !! Z.to_nat (newWidth + 4) = Some 0.
Proof.
  intros Hw Hlen. unfold sharpen.
  destruct (trips (newWidth + 4) (data_length data - newWidth * 4 - 4))
    as [|n] eqn:Hn.
  { unfold trips in Hn.
    assert (1 <= (data_length data - newWidth * 4 - 4 - (newWidth + 4) + 3) / 4)
      by (apply Z.div_le_lower_bound; lia).
    lia. }
  cbn [for_loop].
  rewrite for_loop_below by (apply sharpen_step_writes_rgb || lia).
  unfold sharpen_step. cbn [fold_left].
  rewrite !data_set_lookup_ne by lia.
  replace (newWidth + 4 + 0) with (Z.of_nat (Z.to_nat (newWidth + 4))) at 1
    by lia.
  rewrite data_set_lookup_eq.
  destruct (lookup_lt_is_Some_2 data (Z.to_nat (newWidth + 4))) as [v ->].
  { unfold data_length in Hlen. lia. }
  cbn [fmap option_fmap option_map]. f_equal.
  apply channel_byte_nan, convolve_reads_above. lia.
Qed.

(** * Further properties of the filters *)

(** ** Sizes *)

Lemma for_loop_length (body : Z -> Uint8ClampedArray -> Uint8ClampedArray)
  n i data :
  (forall j d, length (body j d) = length d) ->
  length (for_loop n i body data) = length data.
Proof.
  intros Hbody.
  apply (for_loop_inv (fun d => length d = length data) (fun _ => True)); auto.
  intros j d _ Hd. by rewrite Hbody.
Qed.

Lemma store_pixel_length data i rgb :
  length (store_pixel data i rgb) = length data.
Proof.
  destruct rgb as [[r g] b]. unfold store_pixel. by rewrite !data_set_length.
Qed.

(** X1: no filter changes the number of samples of the buffer it works on,
    whatever the buffer and the parameters are. *)
Theorem filters_keep_length (data : Uint8ClampedArray) (width : Z)
  (strength intensity : float) (style colorScheme : string) :
  length (applyRestorationFilter data strength) = length data
  /\ length (sharpen width data) = length data
  /\ length (applyStyleTransfer data style intensity) = length data
  /\ length (applyColorization data colorScheme intensity) = length data.
Proof.
  repeat split; apply for_loop_length; intros j d.
  - unfold restoration_step.
    destruct (0.3 <? strength)%float; by rewrite !data_set_length.
  - unfold sharpen_step. cbn [fold_left]. by rewrite !data_set_length.
  - apply store_pixel_length.
  - apply store_pixel_length.
Qed.

(** ** The score of an image of width 2 or more is 0 or NaN *)

Lemma attention_score_no_turn (width : Z) (data : Uint8ClampedArray) :
  data_length data <= 5 * width + 8 ->
  calculateAttentionScore width data = 0%float.
Proof.
  intros Hlen. unfold calculateAttentionScore.
  replace (trips (width + 4) (data_length data - width * 4 - 4)) with 0%nat;
    [reflexivity |].
  unfold trips.
  assert ((data_length data - width * 4 - 4 - (width + 4) + 3) / 4 <= 0);
    [| lia].
  apply Z.lt_succ_r, Z.div_lt_upper_bound; lia.
Qed.

(** X2: for a width of 2 or more the score tells nothing of the image: it is
    0 when the buffer has at most [5 * width + 8] samples (the loop makes no
    turn), and NaN for every larger buffer. *)
Theorem attention_score_zero_or_nan (width : Z) (data : Uint8ClampedArray) :
  2 <= width ->
  (data_length data <= 5 * width + 8 ->
   calculateAttentionScore width data = 0%float)
  /\ (5 * width + 8 < data_length data ->
      is_nan (calculateAttentionScore width data) = true).
Proof.
  intros Hw. split.
  - apply attention_score_no_turn.
  - by apply attention_score_nan.
Qed.

Lemma attention_score_zero_or_nan_witness :
  (data_length dot_3x3 <= 5 * 3 + 8 ->
   calculateAttentionScore 3 dot_3x3 = 0%float)
  /\ (5 * 3 + 8 < data_length dot_3x3 ->
      is_nan (calculateAttentionScore 3 dot_3x3) = true).
Proof. apply (attention_score_zero_or_nan 3 dot_3x3). lia. Defined.

(** ** Parameters that leave the image as it is *)

Lemma stores_back_all (f : float -> float) :
  forallb (stores_back f) all_bytes = true ->
  forall v, sample v -> ToUint8Clamp (f (Number v)) = v.
Proof.
  intros Hall v Hv. apply Z.eqb_eq.
  exact (proj1 (forallb_forall _ _) Hall v (sample_enumerated v Hv)).
Qed.

(** [data[i] = f(data[i])] changes nothing when [f] and the store give every
    byte back; outside of the buffer it changes nothing anyway. *)
Lemma update_id (f : float -> float) data i :
  valid_buffer data ->
  (forall v, sample v -> ToUint8Clamp (f (Number v)) = v) ->
  data_set data i (f (data_get data i)) = data.
Proof.
  intros Hv Hf. unfold data_set, data_get. destruct (i <? 0); [done |].
  destruct (data !! Z.to_nat i) as [v|] eqn:Hi.
  - apply list_insert_id. rewrite Hi. f_equal. symmetry. apply Hf.
    eapply (proj1 (Forall_lookup _ _) Hv); eauto.
  - apply list_insert_ge. by apply lookup_ge_None.
Qed.

Lemma stretch_0_kept : forallb (stores_back stretch_0) all_bytes = true.
Proof. vm_compute. reflexivity. Qed.

Lemma cool_0_kept :
  forallb (fun f => forallb (stores_back f) all_bytes) cool_0 = true.
Proof. vm_compute. reflexivity. Qed.

Lemma warm_0_kept :
  forallb (fun f => forallb (stores_back f) all_bytes) warm_0 = true.
Proof. vm_compute. reflexivity. Qed.

(** X3: at strength 0 the restoration filter leaves every buffer of byte
    samples as it is: the stretch has factor 1 and there is no blend. *)
Theorem restore_strength_0_identity (data : Uint8ClampedArray) :
  valid_buffer data -> applyRestorationFilter data 0 = data.
Proof.
  intros Hv. unfold applyRestorationFilter.
  apply (for_loop_inv (fun d => d = data) (fun _ => True)); auto.
  intros i d _ ->. unfold restoration_step.
  change (0.3 <? 0)%float with false. cbv iota zeta.
  pose proof (stores_back_all stretch_0 stretch_0_kept) as Hf.
  assert (E : forall j, data_set data j (stretch_0 (data_get data j)) = data)
    by (intros j; by apply update_id).
  unfold stretch_0 in E. by rewrite !E.
Qed.

Lemma restore_strength_0_identity_witness :
  applyRestorationFilter [129; 0; 255; 255; 100; 200; 50; 7] 0
  = [129; 0; 255; 255; 100; 200; 50; 7].
Proof.
  apply (restore_strength_0_identity [129; 0; 255; 255; 100; 200; 50; 7]).
  unfold valid_buffer, sample. repeat constructor; lia.
Defined.

Lemma channelwise_0_identity (fr fg fb : float -> float) data i :
  valid_buffer data ->
  forallb (fun f => forallb (stores_back f) all_bytes) [fr; fg; fb] = true ->
  data_set
    (data_set (data_set data i (fr (data_get data i)))
       (i + 1) (fg (data_get data (i + 1))))
    (i + 2) (fb (data_get data (i + 2))) = data.
Proof.
  intros Hv Hall. cbn [forallb] in Hall.
  apply andb_prop in Hall as [Hr Hall].
  apply andb_prop in Hall as [Hg Hall].
  apply andb_prop in Hall as [Hb _].
  rewrite (update_id fr data i Hv (stores_back_all fr Hr)).
  rewrite (update_id fg data (i + 1) Hv (stores_back_all fg Hg)).
  apply (update_id fb data (i + 2) Hv (stores_back_all fb Hb)).
Qed.

(** X4: at intensity 0 the cool and the warm style leave every buffer of
    byte samples as it is. *)
Theorem cool_warm_intensity_0_identity (data : Uint8ClampedArray) :
  valid_buffer data ->
  applyStyleTransfer data "cool" 0 = data
  /\ applyStyleTransfer data "warm" 0 = data.
Proof.
  intros Hv. unfold applyStyleTransfer. split.
  - apply (for_loop_inv (fun d => d = data) (fun _ => True)); auto.
    intros i d _ ->.
    exact (channelwise_0_identity _ _ _ data i Hv cool_0_kept).
  - apply (for_loop_inv (fun d => d = data) (fun _ => True)); auto.
    intros i d _ ->.
    exact (channelwise_0_identity _ _ _ data i Hv warm_0_kept).
Qed.

Lemma cool_warm_intensity_0_identity_witness :
  applyStyleTransfer [12; 0; 255; 77; 128; 64; 1; 0] "cool" 0
  = [12; 0; 255; 77; 128; 64; 1; 0]
  /\ applyStyleTransfer [12; 0; 255; 77; 128; 64; 1; 0] "warm" 0
     = [12; 0; 255; 77; 128; 64; 1; 0].
Proof.
  apply (cool_warm_intensity_0_identity [12; 0; 255; 77; 128; 64; 1; 0]).
  unfold valid_buffer, sample. repeat constructor; lia.
Defined.

Lemma scheme_switch_unknown colorScheme intensity rgb :
  ~ known_scheme colorScheme -> scheme_switch colorScheme intensity rgb = rgb.
Proof.
  intros Hs. unfold scheme_switch. destruct rgb as [[r g] b]. cbv zeta.
  repeat match goal with
         | |- context [String.eqb colorScheme ?s] =>
             destruct (String.eqb_spec colorScheme s) as [He|_];
             [exfalso; apply Hs; unfold known_scheme; tauto |]
         end.
  reflexivity.
Qed.

(** X5: a colour scheme outside of natural, cool and warm leaves every buffer
    of byte samples as it is, whatever the intensity is: the switch has no
    default case. *)
Theorem unknown_scheme_identity (data : Uint8ClampedArray)
  (colorScheme : string) (intensity : float) :
  valid_buffer data -> ~ known_scheme colorScheme ->
  applyColorization data colorScheme intensity = data.
Proof.
  intros Hv Hs. unfold applyColorization.
  apply (for_loop_inv (fun d => d = data) (fun _ => True)); auto.
  intros i d _ ->. unfold colorize_step.
  rewrite scheme_switch_unknown by done. by apply store_load_pixel.
Qed.

Lemma unknown_scheme_identity_witness :
  applyColorization [12; 0; 255; 77; 128; 64; 1; 0] "sepia" 0.5
  = [12; 0; 255; 77; 128; 64; 1; 0].
Proof.
  apply (unknown_scheme_identity [12; 0; 255; 77; 128; 64; 1; 0] "sepia" 0.5).
  - unfold valid_buffer, sample. repeat constructor; lia.
  - unfold known_scheme. intros [H|[H|H]]; discriminate H.
Defined.

(** ** The tone filters work pixel by pixel *)

(** X6: for every colour scheme and intensity, the colorization stores in
    every whole pixel the clamped bytes of the switch applied to the three
    colour samples of that same pixel of the input: no other sample of the
    buffer has a part in it. *)
Theorem colorize_pixelwise (data : Uint8ClampedArray) (colorScheme : string)
  (intensity : float) (p : nat) (r g b : Z) :
  data !! (4 * p)%nat = Some r ->
  data !! (4 * p + 1)%nat = Some g ->
  data !! (4 * p + 2)%nat = Some b ->
  let out := applyColorization data colorScheme intensity in
  let '(r', g', b') :=
    scheme_switch colorScheme intensity (Number r, Number g, Number b) in
  out !! (4 * p)%nat = Some (channel_byte r')
  /\ out !! (4 * p + 1)%nat = Some (channel_byte g')
  /\ out !! (4 * p + 2)%nat = Some (channel_byte b').
Proof.
  intros Hr Hg Hb.
  exact (tone_loop_pixel (scheme_switch colorScheme intensity) data p r g b
           Hr Hg Hb).
Qed.

Lemma colorize_pixelwise_witness :
  let data := [100; 50; 20; 255; 7; 200; 90; 255] in
  let out := applyColorization data "natural" 0.5 in
  let '(r', g', b') := scheme_switch "natural" 0.5 (7, 200, 90)%float in
  out !! 4%nat = Some (channel_byte r')
  /\ out !! 5%nat = Some (channel_byte g')
  /\ out !! 6%nat = Some (channel_byte b').
Proof.
  exact (colorize_pixelwise [100; 50; 20; 255; 7; 200; 90; 255] "natural" 0.5
           1 7 200 90 eq_refl eq_refl eq_refl).
Defined.

(** X7: for every style and intensity, the style transfer stores in every
    whole pixel the clamped bytes of the switch applied to the three colour
    samples of that same pixel of the input. *)
Theorem style_transfer_pixelwise (data : Uint8ClampedArray) (style : string)
  (intensity : float) (p : nat) (r g b : Z) :
  data !! (4 * p)%nat = Some r ->
  data !! (4 * p + 1)%nat = Some g ->
  data !! (4 * p + 2)%nat = Some b ->
  let out := applyStyleTransfer data style intensity in
  let '(r', g', b') :=
    style_switch style intensity (Number r, Number g, Number b) in
  out !! (4 * p)%nat = Some (channel_byte r')
  /\ out !! (4 * p + 1)%nat = Some (channel_byte g')
  /\ out !! (4 * p + 2)%nat = Some (channel_byte b').
Proof.
  intros Hr Hg Hb.
  exact (tone_loop_pixel (style_switch style intensity) data p r g b
           Hr Hg Hb).
Qed.

Lemma style_transfer_pixelwise_witness :
  let data := [100; 50; 20; 255; 7; 200; 90; 255] in
  let out := applyStyleTransfer data "vivid" 0.5 in
  let '(r', g', b') := style_switch "vivid" 0.5 (7, 200, 90)%float in
  out !! 4%nat = Some (channel_byte r')
  /\ out !! 5%nat = Some (channel_byte g')
  /\ out !! 6%nat = Some (channel_byte b').
Proof.
  exact (style_transfer_pixelwise [100; 50; 20; 255; 7; 200; 90; 255] "vivid"
           0.5 1 7 200 90 eq_refl eq_refl eq_refl).
Defined.

(** ** The sharpening pass *)

Lemma sharpen_frame_witness :
  sharpen 4 (uniform 16 100 100 100 255) !! 50%nat
  = uniform 16 100 100 100 255 !! 50%nat.
Proof.
  apply (sharpen_frame 4 (uniform 16 100 100 100 255) 50).
  right. vm_compute. discriminate.
Defined.

Lemma sharpen_zeroes_first_row_witness :
  sharpen 4 (uniform 16 100 100 100 255) !! Z.to_nat (4 + 4) = Some 0.
Proof.
  apply (sharpen_zeroes_first_row 4 (uniform 16 100 100 100 255)).
  - lia.
  - vm_compute. reflexivity.
Defined.



(** ** The range of the score *)

Lemma SF_nonneg_round_aux m e l :
  SF_nonneg (binary_round_aux prec emax false m e l) = true.
Proof.
  unfold binary_round_aux.
  destruct (shr_fexp prec emax m e l) as [mrs' e'].
  destruct (shr_fexp prec emax _ e' loc_Exact) as [mrs'' e''].
  destruct (shr_m mrs''); [done | | done].
  by destruct (Z.leb e'' (Z.sub emax prec)).
Qed.

Lemma SF_nonneg_round m e : SF_nonneg (binary_round prec emax false m e) = true.
Proof.
  unfold binary_round. destruct (shl_align _ _ _) as [mz ez].
  apply SF_nonneg_round_aux.
Qed.

Lemma SF_nonneg_add x y :
  SF_nonneg x = true -> SF_nonneg y = true ->
  SF_nonneg (SFadd prec emax x y) = true.
Proof.
  destruct x as [sx|[]| |[] mx ex], y as [sy|[]| |[] my ey];
    try done; intros _ _.
  - by destruct sx, sy.
  - unfold SFadd. cbn [cond_Zopp Z.add binary_normalize].
    apply SF_nonneg_round.
Qed.

Lemma SF_nonneg_abs x : SF_nonneg (SFabs x) = true.
Proof. by destruct x. Qed.

Lemma SF_divisor_round m e : SF_divisor (binary_round prec emax false m e) = true.
Proof.
  unfold binary_round. destruct (shl_align _ _ _) as [mz ez].
  unfold binary_round_aux.
  destruct (shr_fexp prec emax _ ez loc_Exact) as [mrs' e'].
  destruct (shr_fexp prec emax _ e' loc_Exact) as [mrs'' e''].
  destruct (shr_m mrs''); [done | | done].
  by destruct (Z.leb e'' (Z.sub emax prec)).
Qed.

Lemma SF_nonneg_div x y :
  SF_nonneg x = true -> SF_divisor y = true ->
  SF_nonneg (SFdiv prec emax x y) = true.
Proof.
  destruct x as [sx|[]| |[] mx ex], y as [[]|[]| |[] my ey];
    try done; intros _ _.
  unfold SFdiv. destruct (SFdiv_core_binary _ _ _ _ _ _) as [[mz ez] lz].
  apply SF_nonneg_round_aux.
Qed.

Lemma Number_divisor c : SF_divisor (Prim2SF (Number c)) = true.
Proof.
  unfold Number. rewrite of_uint63_spec.
  pose proof (Uint63.to_Z_bounded (Uint63.of_Z c)) as Hc.
  destruct (Uint63.to_Z (Uint63.of_Z c)) as [|n|n]; [done | | lia].
  apply SF_divisor_round.
Qed.

Lemma attention_step_nonneg width data i acc :
  SF_nonneg (Prim2SF (fst acc)) = true ->
  SF_nonneg (Prim2SF (fst (attention_step width data i acc))) = true.
Proof.
  destruct acc as [sum count]. cbn [attention_step fst]. intros Hs.
  rewrite FloatAxioms.add_spec. apply SF_nonneg_add; [done |].
  unfold Math.abs. rewrite FloatAxioms.abs_spec. apply SF_nonneg_abs.
Qed.

Lemma min_10_range (s : float) :
  SF_nonneg (Prim2SF s) = true -> nan_or_0_to_10 (Math.min s 10).
Proof.
  intros Hs. unfold nan_or_0_to_10, Math.min.
  change (is_nan 10) with false. rewrite orb_false_r.
  destruct (is_nan s) eqn:Hn; [by left |]. right.
  assert (Hnn : Prim2SF s <> S754_nan).
  { intros H. apply is_nan_spec in H. congruence. }
  assert (H0 : (0 <=? s)%float = true).
  { rewrite FloatAxioms.leb_spec. change (Prim2SF 0) with (S754_zero false).
    by destruct (Prim2SF s) as [?|[]| |[] ? ?]. }
  destruct (s <? 10)%float eqn:H1.
  { split; [done |]. rewrite FloatAxioms.ltb_spec in H1.
    rewrite FloatAxioms.leb_spec. unfold SFltb in H1. unfold SFleb.
    by destruct (SFcompare _ _) as [[]|]. }
  destruct (10 <? s)%float eqn:H2; [done |].
  replace (get_sign s) with false; [done |].
  unfold get_sign, PrimFloat.is_zero.
  rewrite FloatAxioms.ltb_spec in H1, H2.
  rewrite FloatAxioms.eqb_spec. change (Prim2SF zero) with (S754_zero false).
  destruct (Prim2SF s) as [?|[]| |[] m e] eqn:Hp; try done.
  unfold SFeqb. cbn [SFcompare].
  rewrite FloatAxioms.ltb_spec, Hp. reflexivity.
Qed.

(** X11: for every width and every buffer the score is NaN or a number of
    the range [0,10]: the sum of absolute values is never negative, and the
    result is capped at 10. *)
Theorem attention_score_range (width : Z) (data : Uint8ClampedArray) :
  nan_or_0_to_10 (calculateAttentionScore width data).
Proof.
  unfold calculateAttentionScore.
  assert (Hinv : SF_nonneg (Prim2SF (fst
            (for_loop (trips (width + 4) (data_length data - width * 4 - 4))
               (width + 4) (attention_step width data) (0%float, 0)))) = true).
  { apply (for_loop_inv
             (fun acc => SF_nonneg (Prim2SF (fst acc)) = true)
             (fun _ => True)); auto.
    intros i acc _. apply attention_step_nonneg. }
  destruct (for_loop _ _ _ _) as [sum count]. cbn [fst] in Hinv.
  destruct (0 <? count).
  - apply min_10_range. rewrite !FloatAxioms.div_spec.
    apply SF_nonneg_div; [apply SF_nonneg_div |]; auto using Number_divisor.
  - right. by vm_compute.
Qed.

(** ** A parameter that is NaN *)

Lemma mul_nan_r (x y : float) : is_nan y = true -> is_nan (x * y) = true.
Proof.
  rewrite !is_nan_spec, FloatAxioms.mul_spec. intros ->.
  by destruct (Prim2SF x) as [?|?| |? ? ?].
Qed.

Lemma min_nan_r (x y : float) : is_nan y = true -> is_nan (Math.min x y) = true.
Proof. intros H. unfold Math.min. by rewrite H, orb_true_r. Qed.

(** [is_nan e = true] for an expression with a NaN operand somewhere. *)
Ltac nan_operand :=
  match goal with
  | H : is_nan ?x = true |- is_nan ?x = true => exact H
  | |- is_nan (Math.min _ _) = true =>
      first [apply min_nan_l; nan_operand | apply min_nan_r; nan_operand]
  | |- is_nan (_ + _)%float = true =>
      first [apply add_nan_l; nan_operand | apply add_nan_r; nan_operand]
  | |- is_nan (_ - _)%float = true =>
      first [apply sub_nan_l; nan_operand | apply sub_nan_r; nan_operand]
  | |- is_nan (_ * _)%float = true =>
      first [apply mul_nan_l; nan_operand | apply mul_nan_r; nan_operand]
  end.

Ltac switch_cases :=
  cbv beta iota zeta delta
    [style_switch scheme_switch String.eqb Ascii.eqb Bool.eqb].

Lemma ltb_nan_r (x y : float) : is_nan y = true -> (x <? y)%float = false.
Proof.
  rewrite is_nan_spec, FloatAxioms.ltb_spec. intros ->. unfold SFltb.
  by destruct (Prim2SF x) as [?|?| |? ? ?].
Qed.

Lemma restore_sample_nan strength v :
  is_nan strength = true -> restore_sample strength v = 0.
Proof.
  intros Hn. unfold restore_sample, clamp.
  rewrite (ltb_nan_r _ _ Hn), ToUint8Clamp_max_0.
  apply ToUint8Clamp_nan. nan_operand.
Qed.

Lemma restore_lookup data strength (k : nat) v :
  data !! k = Some v -> (k mod 4 <> 3)%nat ->
  applyRestorationFilter data strength !! k = Some (restore_sample strength v).
Proof.
  intros Hv Hc. unfold applyRestorationFilter.
  destruct (pixel_of_sample k) as [[Hlo Hhi] Hrgb]. specialize (Hrgb Hc).
  assert (Hlen : Z.of_nat k < data_length data).
  { unfold data_length. apply lookup_lt_Some in Hv. lia. }
  destruct (for_loop_pixel (restoration_step strength)
              (trips 0 (data_length data)) data (k / 4) k
              (restoration_step_writes_rgb strength)
              (trips_covers _ _ Hlen) Hhi) as (before & -> & Hsame).
  apply restoration_step_lookup; [lia |].
  rewrite Hsame by lia. exact Hv.
Qed.

(** X12: with a strength that is NaN the restoration filter stores 0 in
    every colour sample of the buffer. *)
Theorem restore_nan_strength (data : Uint8ClampedArray) (strength : float)
  (k : nat) (v : Z) :
  is_nan strength = true -> data !! k = Some v -> (k mod 4 <> 3)%nat ->
  applyRestorationFilter data strength !! k = Some 0.
Proof.
  intros Hn Hv Hc. rewrite (restore_lookup data strength k v Hv Hc).
  by rewrite restore_sample_nan.
Qed.

Lemma restore_nan_strength_witness :
  applyRestorationFilter [129; 0; 255; 255; 100; 200; 50; 7] nan !! 5%nat
  = Some 0.
Proof.
  apply (restore_nan_strength [129; 0; 255; 255; 100; 200; 50; 7] nan 5 200).
  - reflexivity.
  - reflexivity.
  - simpl. lia.
Defined.

Lemma style_switch_nan style intensity r g b :
  known_style style -> is_nan intensity = true ->
  let '(r', g', b') := style_switch style intensity (r, g, b) in
  is_nan r' = true /\ is_nan g' = true /\ is_nan b' = true.
Proof.
  intros Hs Hn.
  destruct Hs as [->|[->|[->|[->| ->]]]]; switch_cases;
    repeat split; nan_operand.
Qed.

(** X13: with an intensity that is NaN each of the five styles stores 0 in
    the three colour samples of every whole pixel. *)
Theorem style_nan_intensity (data : Uint8ClampedArray) (style : string)
  (intensity : float) (p : nat) (r g b : Z) :
  known_style style -> is_nan intensity = true ->
  data !! (4 * p)%nat = Some r ->
  data !! (4 * p + 1)%nat = Some g ->
  data !! (4 * p + 2)%nat = Some b ->
  applyStyleTransfer data style intensity !! (4 * p)%nat = Some 0
  /\ applyStyleTransfer data style intensity !! (4 * p + 1)%nat = Some 0
  /\ applyStyleTransfer data style intensity !! (4 * p + 2)%nat = Some 0.
Proof.
  intros Hs Hn Hr Hg Hb.
  pose proof (tone_loop_pixel (style_switch style intensity) data p r g b
                Hr Hg Hb) as H. cbv zeta in H.
  pose proof (style_switch_nan style intensity (Number r) (Number g)
                (Number b) Hs Hn) as Hnan.
  destruct (style_switch style intensity (Number r, Number g, Number b))
    as [[r' g'] b'].
  destruct Hnan as (Hr' & Hg' & Hb'). destruct H as (H0 & H1 & H2).
  rewrite channel_byte_nan in H0, H1, H2 by done. done.
Qed.

Lemma style_nan_intensity_witness :
  applyStyleTransfer [100; 50; 20; 255; 7; 200; 90; 255] "vivid" nan !! 4%nat
  = Some 0
  /\ applyStyleTransfer [100; 50; 20; 255; 7; 200; 90; 255] "vivid" nan
     !! 5%nat = Some 0
  /\ applyStyleTransfer [100; 50; 20; 255; 7; 200; 90; 255] "vivid" nan
     !! 6%nat = Some 0.
Proof.
  apply (style_nan_intensity [100; 50; 20; 255; 7; 200; 90; 255] "vivid" nan
           1 7 200 90).
  - unfold known_style. tauto.
  - reflexivity.
  - reflexivity.
  - reflexivity.
  - reflexivity.
Defined.

(** ** Black pixels *)

Lemma SFmul_zero_or_nan_l x y :
  SF_zero_or_nan x = true -> SF_zero_or_nan (SFmul prec emax x y) = true.
Proof. by destruct x as [?|?| |? ? ?], y as [?|?| |? ? ?]. Qed.

Lemma SFmul_zero_or_nan_r x y :
  SF_zero_or_nan y = true -> SF_zero_or_nan (SFmul prec emax x y) = true.
Proof. by destruct x as [?|?| |? ? ?], y as [?|?| |? ? ?]. Qed.

Lemma SFadd_zero_or_nan x y :
  SF_zero_or_nan x = true -> SF_zero_or_nan y = true ->
  SF_zero_or_nan (SFadd prec emax x y) = true.
Proof. by destruct x as [[]|?| |? ? ?], y as [[]|?| |? ? ?]. Qed.

Lemma SFsub_zero_or_nan x y :
  SF_zero_or_nan x = true -> SF_zero_or_nan y = true ->
  SF_zero_or_nan (SFsub prec emax x y) = true.
Proof. by destruct x as [[]|?| |? ? ?], y as [[]|?| |? ? ?]. Qed.

Lemma mul_zero_or_nan_l (x y : float) : zero_or_nan x -> zero_or_nan (x * y).
Proof.
  unfold zero_or_nan. rewrite FloatAxioms.mul_spec.
  apply SFmul_zero_or_nan_l.
Qed.

Lemma mul_zero_or_nan_r (x y : float) : zero_or_nan y -> zero_or_nan (x * y).
Proof.
  unfold zero_or_nan. rewrite FloatAxioms.mul_spec.
  apply SFmul_zero_or_nan_r.
Qed.

Lemma add_zero_or_nan (x y : float) :
  zero_or_nan x -> zero_or_nan y -> zero_or_nan (x + y).
Proof.
  unfold zero_or_nan. rewrite FloatAxioms.add_spec. apply SFadd_zero_or_nan.
Qed.

Lemma sub_zero_or_nan (x y : float) :
  zero_or_nan x -> zero_or_nan y -> zero_or_nan (x - y).
Proof.
  unfold zero_or_nan. rewrite FloatAxioms.sub_spec. apply SFsub_zero_or_nan.
Qed.

Lemma min_255_zero_or_nan (x : float) :
  zero_or_nan x -> zero_or_nan (Math.min 255 x).
Proof.
  unfold zero_or_nan, Math.min. intros Hx.
  change (is_nan 255) with false. cbn [orb].
  destruct (is_nan x) eqn:Hn; [done |].
  rewrite !FloatAxioms.ltb_spec.
  destruct (Prim2SF x) as [s|?| |? ? ?] eqn:Hp; try discriminate Hx.
  - change (SFltb (Prim2SF 255) (S754_zero s)) with false.
    change (SFltb (S754_zero s) (Prim2SF 255)) with true.
    cbv iota. by rewrite Hp.
  - apply is_nan_spec in Hp. congruence.
Qed.

Lemma Number_0_zero_or_nan : zero_or_nan (Number 0).
Proof. reflexivity. Qed.

(** [zero_or_nan e] for an expression over the samples of a black pixel. *)
Ltac black_operand :=
  match goal with
  | |- zero_or_nan (Number 0) => exact Number_0_zero_or_nan
  | |- zero_or_nan (Math.min 255 _) => apply min_255_zero_or_nan; black_operand
  | |- zero_or_nan (_ + _)%float => apply add_zero_or_nan; black_operand
  | |- zero_or_nan (_ - _)%float => apply sub_zero_or_nan; black_operand
  | |- zero_or_nan (_ * _)%float =>
      first [apply mul_zero_or_nan_l; black_operand
            | apply mul_zero_or_nan_r; black_operand]
  end.

Lemma channel_byte_zero_or_nan (x : float) : zero_or_nan x -> channel_byte x = 0.
Proof.
  intros Hx. unfold channel_byte. rewrite ToUint8Clamp_max_0.
  apply min_255_zero_or_nan in Hx. unfold zero_or_nan in Hx.
  unfold ToUint8Clamp. by destruct (Prim2SF _) as [?|?| |? ? ?].
Qed.

Lemma style_switch_black style intensity :
  let '(r', g', b') :=
    style_switch style intensity (Number 0, Number 0, Number 0) in
  zero_or_nan r' /\ zero_or_nan g' /\ zero_or_nan b'.
Proof.
  unfold style_switch.
  repeat match goal with
         | |- context [String.eqb style ?s] => destruct (String.eqb style s)
         end; cbv zeta; repeat split; black_operand.
Qed.

Lemma scheme_switch_black colorScheme intensity :
  let '(r', g', b') :=
    scheme_switch colorScheme intensity (Number 0, Number 0, Number 0) in
  zero_or_nan r' /\ zero_or_nan g' /\ zero_or_nan b'.
Proof.
  unfold scheme_switch. cbv zeta.
  repeat match goal with
         | |- context [String.eqb colorScheme ?s] =>
             destruct (String.eqb colorScheme s)
         end; repeat split; black_operand.
Qed.

(** X14: a black pixel stays black under the style transfer and under the
    colorization, whatever the style, the colour scheme and the intensity
    (NaN and the infinities too) are. *)
Theorem black_stays_black (data : Uint8ClampedArray)
  (style colorScheme : string) (intensity : float) (p : nat) :
  data !! (4 * p)%nat = Some 0 ->
  data !! (4 * p + 1)%nat = Some 0 ->
  data !! (4 * p + 2)%nat = Some 0 ->
  (applyStyleTransfer data style intensity !! (4 * p)%nat = Some 0
   /\ applyStyleTransfer data style intensity !! (4 * p + 1)%nat = Some 0
   /\ applyStyleTransfer data style intensity !! (4 * p + 2)%nat = Some 0)
  /\ (applyColorization data colorScheme intensity !! (4 * p)%nat = Some 0
      /\ applyColorization data colorScheme intensity !! (4 * p + 1)%nat
         = Some 0
      /\ applyColorization data colorScheme intensity !! (4 * p + 2)%nat
         = Some 0).
Proof.
  intros Hr Hg Hb. split.
  - pose proof (tone_loop_pixel (style_switch style intensity) data p 0 0 0
                  Hr Hg Hb) as H. cbv zeta in H.
    pose proof (style_switch_black style intensity) as Hz.
    destruct (style_switch style intensity (Number 0, Number 0, Number 0))
      as [[r' g'] b'].
    destruct Hz as (Hr' & Hg' & Hb'). destruct H as (H0 & H1 & H2).
    rewrite channel_byte_zero_or_nan in H0, H1, H2 by done. done.
  - pose proof (tone_loop_pixel (scheme_switch colorScheme intensity) data p
                  0 0 0 Hr Hg Hb) as H. cbv zeta in H.
    pose proof (scheme_switch_black colorScheme intensity) as Hz.
    destruct (scheme_switch colorScheme intensity
                (Number 0, Number 0, Number 0)) as [[r' g'] b'].
    destruct Hz as (Hr' & Hg' & Hb'). destruct H as (H0 & H1 & H2).
    rewrite channel_byte_zero_or_nan in H0, H1, H2 by done. done.
Qed.

Lemma black_stays_black_witness :
  (applyStyleTransfer (white ++ black) "warm" infinity !! 4%nat = Some 0
   /\ applyStyleTransfer (white ++ black) "warm" infinity !! 5%nat = Some 0
   /\ applyStyleTransfer (white ++ black) "warm" infinity !! 6%nat = Some 0)
  /\ (applyColorization (white ++ black) "cool" infinity !! 4%nat = Some 0
      /\ applyColorization (white ++ black) "cool" infinity !! 5%nat = Some 0
      /\ applyColorization (white ++ black) "cool" infinity !! 6%nat = Some 0).
Proof.
  exact (black_stays_black (white ++ black) "warm" "cool" infinity 1
           eq_refl eq_refl eq_refl).
Defined.

(** ** Colorization with an intensity that is NaN *)

Lemma scheme_switch_nan colorScheme intensity r g b :
  known_scheme colorScheme -> is_nan intensity = true ->
  let '(r', g', b') := scheme_switch colorScheme intensity (r, g, b) in
  is_nan r' = true /\ is_nan b' = true
  /\ (colorScheme <> "cool"%string -> is_nan g' = true).
Proof.
  intros Hs Hn.
  destruct Hs as [->|[->| ->]]; switch_cases;
    repeat split;
    first [nan_operand | intros H; first [nan_operand | by elim H]].
Qed.

(** X15: with an intensity that is NaN each of the three colour schemes
    stores 0 in the red and in the blue sample of every whole pixel; natural
    and warm store 0 in the green sample too, where cool keeps the luma
    there. *)
Theorem colorize_nan_intensity (data : Uint8ClampedArray)
  (colorScheme : string) (intensity : float) (p : nat) (r g b : Z) :
  known_scheme colorScheme -> is_nan intensity = true ->
  data !! (4 * p)%nat = Some r ->
  data !! (4 * p + 1)%nat = Some g ->
  data !! (4 * p + 2)%nat = Some b ->
  applyColorization data colorScheme intensity !! (4 * p)%nat = Some 0
  /\ applyColorization data colorScheme intensity !! (4 * p + 2)%nat = Some 0
  /\ (colorScheme <> "cool"%string ->
      applyColorization data colorScheme intensity !! (4 * p + 1)%nat
      = Some 0)
  /\ (colorScheme = "cool"%string ->
      applyColorization data colorScheme intensity !! (4 * p + 1)%nat
      = Some (channel_byte
                (0.299 * Number r + 0.587 * Number g + 0.114 * Number b))).
Proof.
  intros Hs Hn Hr Hg Hb.
  pose proof (tone_loop_pixel (scheme_switch colorScheme intensity) data p
                r g b Hr Hg Hb) as H. cbv zeta in H.
  pose proof (scheme_switch_nan colorScheme intensity (Number r) (Number g)
                (Number b) Hs Hn) as Hnan.
  destruct (scheme_switch colorScheme intensity
              (Number r, Number g, Number b)) as [[r' g'] b'] eqn:Hsw.
  destruct Hnan as (Hr' & Hb' & Hg'). destruct H as (H0 & H1 & H2).
  rewrite channel_byte_nan in H0, H2 by done. repeat split; try done.
  - intros Hc. etransitivity; [exact H1 |].
    by rewrite channel_byte_nan by auto.
  - intros ->. etransitivity; [exact H1 |].
    revert Hsw. switch_cases. intros Hsw. by inversion Hsw.
Qed.

Lemma colorize_nan_intensity_witness :
  let data := [100; 50; 20; 255; 7; 200; 90; 255] in
  applyColorization data "cool" nan !! 4%nat = Some 0
  /\ applyColorization data "cool" nan !! 6%nat = Some 0
  /\ ("cool"%string <> "cool"%string ->
      applyColorization data "cool" nan !! 5%nat = Some 0)
  /\ ("cool"%string = "cool"%string ->
      applyColorization data "cool" nan !! 5%nat
      = Some (channel_byte (0.299 * Number 7 + 0.587 * Number 200
                            + 0.114 * Number 90))).
Proof.
  apply (colorize_nan_intensity [100; 50; 20; 255; 7; 200; 90; 255] "cool" nan
           1 7 200 90).
  - unfold known_scheme. tauto.
  - reflexivity.
  - reflexivity.
  - reflexivity.
  - reflexivity.
Defined.

(** ** The alpha samples under the sharpening pass *)

(** X16: when the width is a multiple of 4 the turns of the sharpening loop
    are at whole pixels, and the pass leaves every alpha sample as it was. *)
Theorem sharpen_alpha_aligned (newWidth : Z) (data : Uint8ClampedArray)
  (p : nat) :
  newWidth mod 4 = 0 ->
  sharpen newWidth data !! (4 * p + 3)%nat = data !! (4 * p + 3)%nat.
Proof.
  intros Hw. unfold sharpen.
  apply (for_loop_inv
           (fun d => d !! (4 * p + 3)%nat = data !! (4 * p + 3)%nat)
           (fun i => exists j : Z, i = 4 * j)).
  - intros i s [j ->] Hs. rewrite <- Hs.
    apply sharpen_step_writes_rgb. lia.
  - intros i [j ->]. exists (j + 1). lia.
  - exists (newWidth / 4 + 1).
    pose proof (Z.div_mod newWidth 4 ltac:(lia)). lia.
  - done.
Qed.

Lemma sharpen_alpha_aligned_witness :
  sharpen 4 (uniform 16 100 100 100 255) !! (4 * 5 + 3)%nat
  = uniform 16 100 100 100 255 !! (4 * 5 + 3)%nat.
Proof.
  apply (sharpen_alpha_aligned 4 (uniform 16 100 100 100 255) 5).
  reflexivity.
Defined.
